(** * Document ingestion and retrieval service

    A shallow embedding of [app/services/document_service.py]
    (class [DocumentService]) and of the search route of
    [app/routes/documents.py], with the properties of the chunker, the
    extractor, the embedder wrapper, the orchestrator and the search
    entry point stated and proved over it.

    Conventions.
    - Python [str] values are [string]s; a character is a code point in
      the range 0..255, and the whitespace and case tables below are those
      of Python on that range.
    - Python [int] values are [Z]; [//] is [Z.div] (both round towards
      minus infinity for a positive divisor).
    - numpy [float64] values are [spec_float]s at precision 53 and
      maximal exponent 1024 (IEEE-754 binary64).
    - A call that may raise returns a [result]; a function that holds the
      database is given the [store] and returns it.
    - Names are resolved as Python resolves them. The module
      [document_service.py] binds neither [mongo] nor [datetime], and the
      class [DocumentChunk] that it imports from [mongo_models.py] has no
      attribute [query]: a statement that reads one of them raises
      [NameError] or [AttributeError] there, and what follows it in the
      function does not run. *)

From Stdlib Require Import ZArith List String Ascii Bool Lia.
From Stdlib Require Import Floats.SpecFloat.
Import ListNotations.

Local Open Scope string_scope.
Local Open Scope list_scope.
Local Open Scope Z_scope.

(** ** Python strings *)

Module PyStr.

(** [len(s)] *)
Definition len (s : string) : Z := Z.of_nat (String.length s).

(** [c.isspace()] on code points below 256: TAB, LF, VT, FF, CR, the four
    separators FS, GS, RS, US, SPACE, NEL and NBSP. *)
Definition isspace (c : ascii) : bool :=
  let n := nat_of_ascii c in
  ((9 <=? n) && (n <=? 13))%nat || ((28 <=? n) && (n <=? 32))%nat
  || (n =? 133)%nat || (n =? 160)%nat.

(** [c.lower()] on code points below 256. *)
Definition lower_char (c : ascii) : ascii :=
  let n := nat_of_ascii c in
  if ((65 <=? n) && (n <=? 90))%nat
     || ((192 <=? n) && (n <=? 222) && negb (n =? 215))%nat
  then ascii_of_nat (n + 32) else c.

(** [s.lower()] *)
Fixpoint lower (s : string) : string :=
  match s with
  | EmptyString => EmptyString
  | String c s' => String (lower_char c) (lower s')
  end.

(** The scan of [s.split()]: [cur] is the token being read. *)
Fixpoint split_scan (cur : string) (s : string) : list string :=
  match s with
  | EmptyString => if String.eqb cur "" then [] else [cur]
  | String c s' =>
      if isspace c
      then if String.eqb cur "" then split_scan "" s'
           else cur :: split_scan "" s'
      else split_scan (cur ++ String c "")%string s'
  end.

(** [s.split()]: the maximal runs of non-whitespace characters. *)
Definition split (s : string) : list string := split_scan "" s.

(** [sep.join(l)] *)
Definition join (sep : string) (l : list string) : string :=
  String.concat sep l.

(** [s.find(sub)] searched from offset [i]: the lowest index at which
    [sub] occurs, and [-1] when there is none. *)
Fixpoint find_from (i : Z) (sub s : string) : Z :=
  if String.prefix sub s then i
  else match s with
       | EmptyString => -1
       | String _ s' => find_from (i + 1) sub s'
       end.

(** [s.find(sub)] *)
Definition find (s sub : string) : Z := find_from 0 sub s.

(** The scan of [s.rsplit(c, 1)]: [Some (before, after)] around the last
    occurrence of [c] in [s], [None] when [c] does not occur. *)
Fixpoint rsplit_scan (c : ascii) (s : string) : option (string * string) :=
  match s with
  | EmptyString => None
  | String d s' =>
      match rsplit_scan c s' with
      | Some (before, after) => Some (String d before, after)
      | None => if Ascii.eqb d c then Some ("", s') else None
      end
  end.

(** [s.rsplit(c, 1)] *)
Definition rsplit1 (c : ascii) (s : string) : list string :=
  match rsplit_scan c s with
  | Some (before, after) => [before; after]
  | None => [s]
  end.

(** [s.lstrip()] *)
Fixpoint lstrip (s : string) : string :=
  match s with
  | EmptyString => EmptyString
  | String c s' => if isspace c then lstrip s' else s
  end.

(** Reversal, used for the right end of [strip]. *)
Fixpoint rev_onto (acc s : string) : string :=
  match s with
  | EmptyString => acc
  | String c s' => rev_onto (String c acc) s'
  end.

(** [s.strip()] *)
Definition strip (s : string) : string :=
  rev_onto "" (lstrip (rev_onto "" (lstrip s))).

(** [sub in s] *)
Definition contains (s sub : string) : bool := 0 <=? find s sub.

(** [l[i:]] for a possibly negative [i]. *)
Definition slice_from {A : Type} (i : Z) (l : list A) : list A :=
  let n := Z.of_nat (List.length l) in
  let start := if i <? 0 then Z.max (n + i) 0 else Z.min i n in
  skipn (Z.to_nat start) l.

End PyStr.

(** ** Exceptions and results *)

(** The exceptions that the modelled code raises: [NameError] from a
    name that the module does not bind, [AttributeError] from an
    attribute that a class does not have, [IndexError] from a subscript
    out of range, [OSError] from [file.save], [ValueError] from
    [upload_document] itself, [EncodeError] from the embedding model, and
    the two [Exception]s that [extract_text_from_pdf] raises itself. *)
Inductive exn : Type :=
| NameError
| AttributeError
| IndexError
| OSError
| ValueError
| EncodeError
| PdfUnavailable
| PdfExtractionError.

Inductive result (A : Type) : Type :=
| Returned (a : A)
| Raised (e : exn).

Arguments Returned {A} a.
Arguments Raised {A} e.

(** ** Names *)

(** The names that [document_service.py] binds at module level: those
    of its [import] statements, its two flags and its class. *)
Definition module_globals : list string :=
  ["os"; "PyPDF2"; "PDF_AVAILABLE"; "uuid"; "List"; "Dict"; "Optional";
   "Tuple"; "secure_filename"; "Document"; "DocumentChunk"; "json";
   "SentenceTransformer"; "faiss"; "np"; "EMBEDDINGS_AVAILABLE";
   "DocumentService"].

(** Whether the module binds a name. *)
Definition name_bound (name : string) : bool :=
  existsb (String.eqb name) module_globals.

(** The attributes of the class [DocumentChunk] of [mongo_models.py]:
    its own and those of [MongoModel]. *)
Definition DocumentChunk_attributes : list string :=
  ["collection_name"; "create"; "find_by_document"; "update_embedding";
   "to_dict"; "find_one"; "find"; "insert_one"; "update_one"; "delete_one"].

(** ** The chunker: [DocumentService.chunk_text] *)

(** An entry of [pages_info]. *)
Record page_info : Type := mk_page_info {
  pi_page_number : Z;
  pi_text : string;
  char_start : Z;
  char_end : Z
}.

(** A chunk descriptor, the dictionary that [chunk_text] appends. *)
Record chunk : Type := mk_chunk {
  index : Z;
  content : string;
  start_char : Z;
  end_char : Z;
  page_number : Z
}.

(** [self.chunk_size] and [self.chunk_overlap]. *)
Record config : Type := mk_config {
  chunk_size : Z;
  chunk_overlap : Z
}.

(** The values set by [__init__]. *)
Definition default_config : config :=
  {| chunk_size := 1000; chunk_overlap := 200 |}.

(** The page lookup: the first page whose interval holds [chunk_start],
    page 1 when there is none. *)
Fixpoint find_page (pages_info : list page_info) (chunk_start : Z) : Z :=
  match pages_info with
  | [] => 1
  | p :: rest =>
      if (char_start p <=? chunk_start) && (chunk_start <=? char_end p)
      then pi_page_number p
      else find_page rest chunk_start
  end.

(** The descriptor built for a window of words. *)
Definition make_chunk (text : string) (pages_info : list page_info)
    (chunk_index : Z) (current_chunk : list string) : chunk :=
  let chunk_text := PyStr.join " " current_chunk in
  let chunk_start := PyStr.find text chunk_text in
  let chunk_end := chunk_start + PyStr.len chunk_text in
  {| index := chunk_index;
     content := chunk_text;
     start_char := chunk_start;
     end_char := chunk_end;
     page_number := find_page pages_info chunk_start |}.

(** [sum(len(w) + 1 for w in current_chunk)] *)
Definition window_length (current_chunk : list string) : Z :=
  fold_right (fun w acc => PyStr.len w + 1 + acc) 0 current_chunk.

(** The local variables of the loop of [chunk_text]. *)
Record chunker_state : Type := mk_chunker_state {
  chunks : list chunk;
  current_chunk : list string;
  current_length : Z;
  chunk_index : Z
}.

Definition chunker_init : chunker_state :=
  {| chunks := []; current_chunk := []; current_length := 0;
     chunk_index := 0 |}.

(** [current_chunk[-self.chunk_overlap//10:] if len(current_chunk) >
    self.chunk_overlap//10 else []]; the unary minus binds tighter than
    [//]. *)
Definition overlap_words (cfg : config) (current_chunk : list string)
    : list string :=
  if Z.of_nat (List.length current_chunk) >? chunk_overlap cfg / 10
  then PyStr.slice_from ((- chunk_overlap cfg) / 10) current_chunk
  else [].

(** One iteration of [for word in words]. *)
Definition chunker_step (cfg : config) (text : string)
    (pages_info : list page_info) (st : chunker_state) (word : string)
    : chunker_state :=
  if (current_length st + PyStr.len word + 1 >? chunk_size cfg)
     && negb (match current_chunk st with [] => true | _ => false end)
  then
    let next := overlap_words cfg (current_chunk st) ++ [word] in
    {| chunks := chunks st
                 ++ [make_chunk text pages_info (chunk_index st)
                       (current_chunk st)];
       current_chunk := next;
       current_length := window_length next;
       chunk_index := chunk_index st + 1 |}
  else
    {| chunks := chunks st;
       current_chunk := current_chunk st ++ [word];
       current_length := current_length st + PyStr.len word + 1;
       chunk_index := chunk_index st |}.

(** The state after the loop over [words]. *)
Definition chunker_loop (cfg : config) (text : string)
    (pages_info : list page_info) (words : list string)
    (st : chunker_state) : chunker_state :=
  fold_left (chunker_step cfg text pages_info) words st.

(** The final chunk, added when the last window is not empty. *)
Definition chunker_finish (text : string) (pages_info : list page_info)
    (st : chunker_state) : list chunk :=
  match current_chunk st with
  | [] => chunks st
  | _ => chunks st
         ++ [make_chunk text pages_info (chunk_index st) (current_chunk st)]
  end.

Definition chunk_text (cfg : config) (text : string)
    (pages_info : list page_info) : list chunk :=
  chunker_finish text pages_info
    (chunker_loop cfg text pages_info (PyStr.split text) chunker_init).

(** ** The environment of the service *)

(** A vector of [float64] values. *)
Definition vector : Type := list spec_float.

(** [SentenceTransformer.encode] on a batch of texts: the vectors, or
    [None] when the call raises. *)
Definition encoder : Type := list string -> option (list vector).

(** What the service reads but does not own: the flag [PDF_AVAILABLE],
    the model held in [self.embedding_model] ([None] when it was not
    loaded) and, for the PDF at a path, whether it can be opened ([None]:
    it cannot) and the outcome of [page.extract_text()] on each page
    ([None]: the call raises). *)
Record environment : Type := mk_environment {
  PDF_AVAILABLE : bool;
  embedding_model : option encoder;
  open_pdf : string -> option (list (option string))
}.

(** ** The extractor: [DocumentService.extract_text_from_pdf] *)

(** The body of [for page_num, page in enumerate(pdf_reader.pages)]; an
    exception raised by a page leaves the loop. *)
Fixpoint extract_pages (pages : list (option string)) (page_num : Z)
    (text_content : string) (pages_info : list page_info)
    : option (string * list page_info) :=
  match pages with
  | [] => Some (text_content, pages_info)
  | None :: _ => None
  | Some page_text :: rest =>
      let text_content := (text_content ++ page_text ++ String "010" "")%string in
      extract_pages rest (page_num + 1) text_content
        (pages_info
         ++ [{| pi_page_number := page_num + 1;
                pi_text := page_text;
                char_start := PyStr.len text_content - PyStr.len page_text - 1;
                char_end := PyStr.len text_content - 1 |}])
  end.

Definition extract_text_from_pdf (env : environment) (file_path : string)
    : result (string * list page_info) :=
  if negb (PDF_AVAILABLE env) then Raised PdfUnavailable
  else
    match open_pdf env file_path with
    | None => Raised PdfExtractionError
    | Some pages =>
        match extract_pages pages 0 "" [] with
        | None => Raised PdfExtractionError
        | Some r => Returned r
        end
    end.

(** ** The embedder: [DocumentService.generate_embeddings] *)

Definition generate_embeddings (env : environment) (texts : list string)
    : list vector :=
  match embedding_model env with
  | None => map (fun _ => []) texts
  | Some encode =>
      match encode texts with
      | Some embeddings => embeddings
      | None => map (fun _ => []) texts
      end
  end.

(** ** The document store *)

(** A record of the [documents] collection, with the fields that the
    service names; [doc_id] is the key [_id]. *)
Record document : Type := mk_document {
  doc_id : string;
  original_filename : string;
  file_path : string;
  doc_category : string;
  title : string;
  is_indexed : bool;
  is_active : bool
}.

(** A record of the [document_chunks] collection; [ck_id] is the key
    [_id]. *)
Record chunk_record : Type := mk_chunk_record {
  ck_id : nat;
  ck_document_id : string;
  ck_chunk_index : Z;
  ck_content : string;
  ck_embedding : option vector;
  ck_page_number : Z;
  ck_start_char : Z;
  ck_end_char : Z
}.

(** The two collections of the database, each in insertion order, and
    the number of identifiers drawn from [uuid.uuid4()] so far: the
    [n]-th draw is the identifier [n]. *)
Record store : Type := mk_store {
  documents : list document;
  document_chunks : list chunk_record;
  uuids_drawn : nat
}.

(** [uuid.uuid4()] *)
Definition uuid4 (st : store) : nat * store :=
  (uuids_drawn st,
   {| documents := documents st;
      document_chunks := document_chunks st;
      uuids_drawn := S (uuids_drawn st) |}).


(** ** The orchestrator: [DocumentService.process_document] *)

(** The first statement of [process_document], at line 200, is
    [document_data = mongo.db.documents.find_one({'_id': document_id})].
    Its evaluation starts with the name [mongo], which the module does
    not bind (see [module_globals]): the call raises [NameError] for
    every [document_id], before the database is read or written. *)
Definition process_document (st : store) (document_id : string)
    : result bool * store :=
  (Raised NameError, st).

(** The handler [reprocess_document] of [app/routes/documents.py]: the
    message that it flashes. The call of [process_document] sits in a
    [try] whose handler flashes the exception. *)
Inductive flash : Type :=
| flash_success
| flash_error
| flash_exception (e : exn).

Definition reprocess_document (st : store) (document_id : string)
    : flash * store :=
  match process_document st document_id with
  | (Returned true, st) => (flash_success, st)
  | (Returned false, st) => (flash_error, st)
  | (Raised e, st) => (flash_exception e, st)
  end.

(** ** Constants of [float64] *)

Module F64.

Definition prec : Z := 53.
Definition emax : Z := 1024.

Definition zero : spec_float := S754_zero false.
Definition one : spec_float := SFone prec emax.

End F64.

(** ** Retrieval: [DocumentService.search_documents] *)

(** What a search does outside itself: a call of the embedding model and
    the two database queries, the one of the semantic mode and the one of
    the text search. *)
Inductive event : Type :=
| ev_encode (texts : list string)
| ev_semantic_query
| ev_text_query.

(** An entry of the list that [search_documents] returns. *)
Record search_result : Type := mk_search_result {
  r_chunk : chunk_record;
  r_document : document;
  similarity_score : spec_float;
  r_content : string
}.

(** Truth of a Python list. *)
Definition nonempty {A : Type} (l : list A) : bool :=
  match l with [] => false | _ => true end.

(** [self.embedding_model.encode([query])[0].tolist()] inside its [try]:
    [None] when there is no model or the call fails. *)
Definition encode_query (env : environment) (query : string)
    : option vector * list event :=
  match embedding_model env with
  | None => (None, [])
  | Some encode =>
      (match encode [query] with
       | Some (v :: _) => Some v
       | _ => None
       end, [ev_encode [query]])
  end.

(** [search_documents]: the outcome and the calls made, in order. A
    blank query returns the empty list at line 339. Any other query is
    embedded (lines 342 to 347), and then line 350,
    [chunks_query = DocumentChunk.query.join(Document)], reads the
    attribute [query], which the class does not have (see
    [DocumentChunk_attributes]): the call raises [AttributeError],
    outside any [try], before a chunk is read or scored. *)
Definition search_documents (env : environment) (st : store)
    (query : string) (category : option string) (limit : Z)
    : result (list search_result) * list event :=
  if String.eqb (PyStr.strip query) "" then (Returned [], [])
  else
    let (query_embedding, encoded) := encode_query env query in
    (Raised AttributeError, encoded).

(** The JSON object of a successful answer of the route
    [/api/documents/search]. *)
Record search_response : Type := mk_search_response {
  results : list search_result;
  echo : option (string * Z)
}.

(** The answer of the route: the object above, or the error object that
    its [except] branch sends with the status 500. *)
Inductive route_answer : Type :=
| answer_ok (body : search_response)
| answer_error (e : exn).

(** The handler [search_documents] of [app/routes/documents.py], with
    its three request arguments read. *)
Definition search_route (env : environment) (st : store)
    (q category : string) (limit : Z) : route_answer * list event :=
  if String.eqb q "" then (answer_ok {| results := []; echo := None |}, [])
  else
    match search_documents env st q
            (if String.eqb category "" then None else Some category)
            limit with
    | (Returned found, calls) =>
        (answer_ok {| results := found;
                      echo := Some (q, Z.of_nat (List.length found)) |},
         calls)
    | (Raised e, calls) => (answer_error e, calls)
    end.

(** ** Retrieval: [DocumentService.query_documents] *)



(** ** Uploads: [DocumentService.allowed_file] and [upload_document] *)

(** [self.allowed_extensions] *)
Definition allowed_extensions : list string := ["pdf"; "txt"; "doc"; "docx"].

Definition allowed_file (filename : string) : bool :=
  PyStr.contains filename "."
  && match nth_error (PyStr.rsplit1 "." filename) 1 with
     | Some suffix =>
         existsb (String.eqb (PyStr.lower suffix)) allowed_extensions
     | None => false
     end.

(** The uploaded file, as far as the service reads it. *)
Record file_storage : Type := mk_file_storage {
  fs_filename : string;
  content_type : string
}.

(** What [upload_document] takes from outside the service: the folder
    [self.upload_folder], werkzeug's [secure_filename], the text of the
    [n]-th identifier drawn from [uuid.uuid4()], and whether
    [file.save(path)] succeeds. *)
Record upload_settings : Type := mk_upload_settings {
  upload_folder : string;
  secure_filename : string -> string;
  uuid_text : nat -> string;
  save_file : string -> bool
}.

(** [s.endswith(c)] *)
Fixpoint ends_with (c : ascii) (s : string) : bool :=
  match s with
  | EmptyString => false
  | String d EmptyString => Ascii.eqb d c
  | String _ s' => ends_with c s'
  end.

(** [os.path.join(a, b)] on a POSIX system. *)
Definition path_join (a b : string) : string :=
  match b with
  | String "/" _ => b
  | _ => if String.eqb a "" || ends_with "/" a then (a ++ b)%string
         else (a ++ "/" ++ b)%string
  end.

(** [upload_document], with the category and the title of the request.
    A file that is refused raises [ValueError] at line 159. For a file
    that is accepted an identifier is drawn, the name is secured and
    split, and the file is saved (lines 162 to 170); then the dictionary
    of lines 173 to 186 is built, and its entry
    ['upload_date': datetime.utcnow()] reads the name [datetime], which
    the module does not bind: the call raises [NameError] before the
    document is inserted and before [process_document] is called. *)
Definition upload_document (cfg : config) (env : environment)
    (settings : upload_settings) (st : store) (file : file_storage)
    (category title : string) : result document * store :=
  if String.eqb (fs_filename file) "" || negb (allowed_file (fs_filename file))
  then (Raised ValueError, st)
  else
    let (n, st) := uuid4 st in
    let file_id := uuid_text settings n in
    let filename := secure_filename settings (fs_filename file) in
    match nth_error (PyStr.rsplit1 "." filename) 1 with
    | None => (Raised IndexError, st)
    | Some suffix =>
        let file_extension := PyStr.lower suffix in
        let new_filename := (file_id ++ "." ++ file_extension)%string in
        let file_path := path_join (upload_folder settings) new_filename in
        if save_file settings file_path then (Raised NameError, st)
        else (Raised OSError, st)
    end.

(** ** Offsets of the pages of a PDF *)

(** The intervals that the page map gives to pages with the texts
    [texts], the first one starting at [start]: each page is followed by
    one newline, whose offset closes the interval of the page. *)
Fixpoint page_bounds (start : Z) (texts : list string) : list (Z * Z) :=
  match texts with
  | [] => []
  | t :: rest =>
      (start, start + PyStr.len t)
        :: page_bounds (start + PyStr.len t + 1) rest
  end.

(** ** The components in the words of the specification

    The definitions of this part follow the specification, not the code;
    they are what the code is compared with. *)

(** The trailing [k] elements of a list: all of it when it has no more
    than [k]. *)
Definition trailing {A : Type} (k : Z) (l : list A) : list A :=
  skipn (List.length l - Z.to_nat k) l.

(** The seed of the next window as the specification words it: the
    trailing [k] tokens of the closed window. *)
Definition seed_trailing (k : Z) (window : list string) : list string :=
  trailing k window.

(** The seed with the guard of the code: the trailing [k] tokens of a
    closed window that holds more than [k] tokens, and no token
    otherwise. *)
Definition seed_guarded (k : Z) (window : list string) : list string :=
  if Z.of_nat (List.length window) >? k then trailing k window else [].

(** The windows of tokens that the algorithm of section 4.2 closes: a
    token that would make a non-empty window longer than [size] closes
    it, the next window starts from the seed, and the window left at the
    end is emitted when it holds a token. The length of a window counts
    each token with one separator. *)
Fixpoint windows (seed : list string -> list string) (size : Z)
    (window tokens : list string) : list (list string) :=
  match tokens with
  | [] => match window with [] => [] | _ => [window] end
  | token :: rest =>
      if (window_length window + PyStr.len token + 1 >? size)
         && nonempty window
      then window :: windows seed size (seed window ++ [token]) rest
      else windows seed size (window ++ [token]) rest
  end.

(** The chunk contents according to the specification. *)
Definition contents_as_specified (cfg : config) (text : string)
    : list string :=
  map (PyStr.join " ")
    (windows (seed_trailing (chunk_overlap cfg / 10)) (chunk_size cfg) []
       (PyStr.split text)).

(** The chunk contents with the guarded seed. *)
Definition contents_guarded (cfg : config) (text : string) : list string :=
  map (PyStr.join " ")
    (windows (seed_guarded (chunk_overlap cfg / 10)) (chunk_size cfg) []
       (PyStr.split text)).

(** The embedder according to the specification: the vector at each
    position of the batch is the one that its text gets on its own, so a
    text that fails leaves the other positions as they are. *)
Definition embeds_position_wise (env : environment) (texts : list string)
    : Prop :=
  Forall2 (fun t v => generate_embeddings env [t] = [v]) texts
    (generate_embeddings env texts).

(** The PDF extractor according to the specification: a page that cannot
    be read counts as empty text, and the extraction fails when the file
    cannot be opened or when every page is empty. *)
Definition extract_as_specified (env : environment) (file_path : string)
    : result (string * list page_info) :=
  if negb (PDF_AVAILABLE env) then Raised PdfUnavailable
  else
    match open_pdf env file_path with
    | None => Raised PdfExtractionError
    | Some pages =>
        let texts :=
          map (fun p => match p with Some t => t | None => "" end) pages in
        if forallb (String.eqb "") texts then Raised PdfExtractionError
        else match extract_pages (map Some texts) 0 "" [] with
             | Some r => Returned r
             | None => Raised PdfExtractionError
             end
    end.

(** The indices [0, 1, ..., n - 1]. *)
Definition range (n : nat) : list Z := map Z.of_nat (seq 0 n).

(** What the loop keeps true: the next index is the number of chunks
    made, the indices made are [0 .. n-1], and [current_length] is the
    length of the current window. *)
Definition chunker_inv (st : chunker_state) : Prop :=
  chunk_index st = Z.of_nat (List.length (chunks st))
  /\ map index (chunks st) = range (List.length (chunks st))
  /\ current_length st = window_length (current_chunk st).

(** ** The runs of the chunker

    The loop of [chunk_text] as a relation between the state before a
    list of words and the state after it, one rule for each way through
    the body of the loop, and the function as a relation between its
    input and the list that it returns, one rule for each way through the
    final [if]. *)



(** ** Sample data *)

Module Samples.

Definition small_config : config := {| chunk_size := 10; chunk_overlap := 20 |}.

Definition four_words : string := "AAAA BBBB CCCC DDDD".

Definition no_pdfs : string -> option (list (option string)) := fun _ => None.

(** An installation without PyPDF2 and without an embedding model. *)
Definition plain_env : environment :=
  {| PDF_AVAILABLE := false;
     embedding_model := None;
     open_pdf := no_pdfs |}.

Definition notes : document :=
  {| doc_id := "d1"; original_filename := "notes.txt";
     file_path := "uploads/notes.txt"; doc_category := "policy";
     title := "Notes"; is_indexed := false; is_active := true |}.

Definition report : document :=
  {| doc_id := "d2"; original_filename := "report.pdf";
     file_path := "uploads/report.pdf"; doc_category := "policy";
     title := "Report"; is_indexed := false; is_active := true |}.

Definition old_chunk (id : nat) (document_id : string) (i : Z)
    : chunk_record :=
  {| ck_id := id; ck_document_id := document_id; ck_chunk_index := i;
     ck_content := "old"; ck_embedding := Some []; ck_page_number := 1;
     ck_start_char := 0; ck_end_char := 3 |}.

Definition library : store :=
  {| documents := [notes; report];
     document_chunks := [old_chunk 0 "d1" 0; old_chunk 1 "d2" 0;
                         old_chunk 2 "d1" 1];
     uuids_drawn := 3 |}.

(** An embedding model that gives every text the vector [[1.0]] and
    fails on a batch that holds the text ["bad"]. *)
Definition picky_encoder : encoder :=
  fun texts => if existsb (String.eqb "bad") texts then None
               else Some (map (fun _ => [F64.one]) texts).

(** An installation with PyPDF2 and the model above: the second page of
    the report cannot be read, and the two pages of the blank scan have
    no text. *)
Definition full_env : environment :=
  {| PDF_AVAILABLE := true;
     embedding_model := Some picky_encoder;
     open_pdf := fun p => if String.eqb p "uploads/report.pdf"
                          then Some [Some "first page"; None]
                          else if String.eqb p "uploads/blank.pdf"
                          then Some [Some ""; Some ""]
                          else None |}.

(** A store with one active document and one chunk, whose embedding is
    the zero vector of dimension 1. *)
Definition zero_chunk : chunk_record :=
  {| ck_id := 0; ck_document_id := "d1"; ck_chunk_index := 0;
     ck_content := "AAAA BBBB"; ck_embedding := Some [F64.zero];
     ck_page_number := 1; ck_start_char := 0; ck_end_char := 9 |}.

Definition zero_library : store :=
  {| documents := [notes]; document_chunks := [zero_chunk];
     uuids_drawn := 1 |}.

End Samples.

(** More sample data: a brochure of two pages and the settings of an
    upload. *)
Module Cases.

Definition brochure_env : environment :=
  {| PDF_AVAILABLE := true;
     embedding_model := None;
     open_pdf := fun p => if String.eqb p "uploads/brochure.pdf"
                          then Some [Some "Pool opens at nine";
                                     Some "Breakfast until ten"]
                          else None |}.

Definition brochure_text : string :=
  ("Pool opens at nine" ++ String "010" "Breakfast until ten"
   ++ String "010" "")%string.

Definition brochure_pages : list page_info :=
  [{| pi_page_number := 1; pi_text := "Pool opens at nine";
      char_start := 0; char_end := 18 |};
   {| pi_page_number := 2; pi_text := "Breakfast until ten";
      char_start := 19; char_end := 38 |}].

Definition settings : upload_settings :=
  {| upload_folder := "uploads";
     secure_filename := fun name => name;
     uuid_text := fun n => String.concat "" (repeat "x" (S n));
     save_file := fun _ => true |}.

End Cases.

(** * Properties *)

(** ** The chunker *)

Section Chunker.

Variable cfg : config.
Variable text : string.
Variable pages_info : list page_info.

Lemma window_length_app (l : list string) (w : string) :
  window_length (l ++ [w]) = window_length l + PyStr.len w + 1.
Proof.
  unfold window_length.
  induction l as [|x l IH]; simpl.
  - lia.
  - rewrite IH. lia.
Qed.

Lemma range_succ (n : nat) : range (S n) = range n ++ [Z.of_nat n].
Proof.
  unfold range. rewrite seq_S, map_app. reflexivity.
Qed.

Lemma chunker_inv_init : chunker_inv chunker_init.
Proof.
  repeat split.
Qed.

Lemma chunker_step_inv (st : chunker_state) (word : string) :
  chunker_inv st -> chunker_inv (chunker_step cfg text pages_info st word).
Proof.
  intros (Hidx & Hmap & Hlen).
  unfold chunker_step.
  destruct (_ && _); unfold chunker_inv; simpl.
  - rewrite length_app, map_app, Hmap. simpl.
    rewrite Nat.add_1_r, range_succ, Hidx.
    repeat split; lia.
  - rewrite window_length_app, Hlen. repeat split; assumption.
Qed.

Lemma chunker_loop_inv (words : list string) (st : chunker_state) :
  chunker_inv st -> chunker_inv (chunker_loop cfg text pages_info words st).
Proof.
  revert st.
  induction words as [|w words IH]; intros st Hst; simpl.
  - exact Hst.
  - apply IH, chunker_step_inv, Hst.
Qed.

Lemma chunker_finish_index (st : chunker_state) :
  chunker_inv st ->
  map index (chunker_finish text pages_info st)
  = range (List.length (chunker_finish text pages_info st)).
Proof.
  intros (Hidx & Hmap & _).
  unfold chunker_finish.
  destruct (current_chunk st).
  - exact Hmap.
  - rewrite length_app, map_app, Hmap. simpl.
    rewrite Nat.add_1_r, range_succ, Hidx. reflexivity.
Qed.

(** The indices of the chunks of a text are [0 .. N-1], in order. *)
Lemma chunk_text_index :
  map index (chunk_text cfg text pages_info)
  = range (List.length (chunk_text cfg text pages_info)).
Proof.
  apply chunker_finish_index, chunker_loop_inv, chunker_inv_init.
Qed.

(** The loop and the final step produce the windows of [windows], for
    the seed of the code. *)
Lemma chunker_windows (words : list string) (st : chunker_state) :
  current_length st = window_length (current_chunk st) ->
  map content
    (chunker_finish text pages_info
       (chunker_loop cfg text pages_info words st))
  = map content (chunks st)
    ++ map (PyStr.join " ")
         (windows (overlap_words cfg) (chunk_size cfg) (current_chunk st)
            words).
Proof.
  revert st.
  induction words as [|w words IH]; intros st Hlen; simpl.
  - unfold chunker_finish.
    destruct (current_chunk st); simpl.
    + rewrite app_nil_r. reflexivity.
    + rewrite map_app. reflexivity.
  - rewrite IH.
    + unfold chunker_step. rewrite <- Hlen.
      replace (nonempty (current_chunk st))
        with (negb match current_chunk st with [] => true | _ => false end)
        by (destruct (current_chunk st); reflexivity).
      destruct (_ && _); simpl.
      * rewrite map_app, <- app_assoc. reflexivity.
      * reflexivity.
    + unfold chunker_step.
      destruct (_ && _); simpl.
      * reflexivity.
      * rewrite window_length_app, Hlen. reflexivity.
Qed.

End Chunker.

(** For an overlap of [10 * k] with [k] positive the seed of the code is
    the guarded seed. *)
Lemma overlap_words_guarded (cfg : config) (k : Z) (window : list string) :
  chunk_overlap cfg = 10 * k -> 0 < k ->
  overlap_words cfg window = seed_guarded k window.
Proof.
  intros Hk Hpos.
  unfold overlap_words, seed_guarded, trailing, PyStr.slice_from.
  rewrite Hk.
  replace (10 * k / 10) with k by (apply Z.div_unique_exact; lia).
  replace (- (10 * k) / 10) with (- k)
    by (apply Z.div_unique_exact; lia).
  destruct (Z.gtb_spec (Z.of_nat (List.length window)) k) as [Hgt|Hle].
  - destruct (Z.ltb_spec (- k) 0); [|lia].
    f_equal. lia.
  - reflexivity.
Qed.

Lemma windows_ext (seed1 seed2 : list string -> list string) (size : Z)
    (tokens window : list string) :
  (forall w, seed1 w = seed2 w) ->
  windows seed1 size window tokens = windows seed2 size window tokens.
Proof.
  intros Hseed. revert window.
  induction tokens as [|t tokens IH]; intros window; simpl.
  - reflexivity.
  - destruct (_ && _).
    + rewrite Hseed, IH. reflexivity.
    + apply IH.
Qed.

(** The last window ends with the last token: the window left at the end
    of the input is emitted. *)
Lemma windows_last (seed : list string -> list string) (size : Z)
    (tokens window : list string) (t : string) :
  exists ws w, windows seed size window (tokens ++ [t]) = ws ++ [w ++ [t]].
Proof.
  revert window.
  induction tokens as [|a tokens IH]; intros window; simpl.
  - destruct (_ && _).
    + exists [window], (seed window). destruct (seed window); reflexivity.
    + exists [], window. destruct window; reflexivity.
  - destruct (_ && _).
    + destruct (IH (seed window ++ [a])) as (ws & w & H).
      exists (window :: ws), w. rewrite H. reflexivity.
    + apply IH.
Qed.

Lemma trailing_incl {A : Type} (k : Z) (l : list A) : incl (trailing k l) l.
Proof.
  intros x Hx. unfold trailing in Hx.
  rewrite <- (firstn_skipn (List.length l - Z.to_nat k) l).
  apply in_or_app. right. exact Hx.
Qed.

Lemma seed_guarded_incl (k : Z) (window : list string) :
  incl (seed_guarded k window) window.
Proof.
  unfold seed_guarded.
  destruct (_ >? _).
  - apply trailing_incl.
  - intros x [].
Qed.

(** Every window is made of tokens of the input, whole. *)
Lemma windows_incl (k size : Z) (tokens window all : list string) :
  incl window all -> incl tokens all ->
  Forall (fun w => incl w all) (windows (seed_guarded k) size window tokens).
Proof.
  revert window.
  induction tokens as [|t tokens IH]; intros window Hw Ht; simpl.
  - destruct window; constructor; [exact Hw | constructor].
  - assert (Htl : incl tokens all) by (intros x Hx; apply Ht; right; exact Hx).
    assert (Hin : In t all) by (apply Ht; left; reflexivity).
    destruct (_ && _).
    + constructor; [exact Hw|].
      apply IH; [|exact Htl].
      apply incl_app.
      * intros x Hx. apply Hw, (seed_guarded_incl k window), Hx.
      * intros x [<-|[]]. exact Hin.
    + apply IH; [|exact Htl].
      apply incl_app; [exact Hw|].
      intros x [<-|[]]. exact Hin.
Qed.

(** C4, at a text with two spaces between its words: the content
    ["a b"] of the only chunk does not occur in the text, [find] answers
    -1, and the chunk gets the bounds [start_char = -1] and
    [end_char = 2]; the lower bound [0 <= start_char] does not hold. *)
Theorem chunk_text_start_not_found :
  chunk_text default_config "a  b" []
  = [{| index := 0; content := "a b"; start_char := -1; end_char := 2;
        page_number := 1 |}].
Proof.
  reflexivity.
Qed.

(** C5, as the claim words it (the next window is seeded with the
    trailing tokens of the closed one whatever its size), fails: with
    room for two words and an overlap of two tokens the code starts the
    second window empty. *)
Lemma chunk_text_seed_differs :
  map content (chunk_text Samples.small_config Samples.four_words [])
    = ["AAAA BBBB"; "CCCC DDDD"]
  /\ contents_as_specified Samples.small_config Samples.four_words
    = ["AAAA BBBB"; "AAAA BBBB CCCC"; "BBBB CCCC DDDD"]
  /\ map content (chunk_text Samples.small_config Samples.four_words [])
    <> contents_as_specified Samples.small_config Samples.four_words.
Proof.
  repeat split; try reflexivity.
  vm_compute. discriminate.
Qed.

(** C5, amended: for an overlap of [10 * k] with [k] positive, the
    contents of the chunks are the windows of whitespace-separated tokens
    joined with single spaces, where a token that would make a non-empty
    window longer than [chunk_size] closes it and the next window is
    seeded with the trailing [k] tokens of the closed one when that one
    holds more than [k] tokens, and with none otherwise; every window is
    made of whole tokens of the text; the window left at the end is the
    last chunk; a text without a token gives no chunk. *)
Theorem chunk_text_windows (cfg : config) (text : string)
    (pages_info : list page_info) (k : Z) :
  chunk_overlap cfg = 10 * k -> 0 < k ->
  map content (chunk_text cfg text pages_info) = contents_guarded cfg text
  /\ Forall (fun w => incl w (PyStr.split text))
       (windows (seed_guarded (chunk_overlap cfg / 10)) (chunk_size cfg) []
          (PyStr.split text))
  /\ (forall tokens t, PyStr.split text = tokens ++ [t] ->
      exists cs w,
        map content (chunk_text cfg text pages_info)
        = cs ++ [PyStr.join " " (w ++ [t])])
  /\ (PyStr.split text = [] -> chunk_text cfg text pages_info = [])
  /\ chunk_text cfg "" pages_info = [].
Proof.
  intros Hk Hpos.
  assert (Hdiv : chunk_overlap cfg / 10 = k)
    by (rewrite Hk; symmetry; apply Z.div_unique_exact; lia).
  assert (Hcontents :
    map content (chunk_text cfg text pages_info) = contents_guarded cfg text).
  { unfold chunk_text, contents_guarded.
    rewrite chunker_windows by reflexivity. simpl.
    f_equal. apply windows_ext. intros w. rewrite Hdiv.
    apply overlap_words_guarded; assumption. }
  split; [exact Hcontents|].
  split.
  { apply windows_incl.
    - intros x [].
    - intros x Hx; exact Hx. }
  split.
  { intros tokens t Hsplit.
    rewrite Hcontents. unfold contents_guarded. rewrite Hsplit.
    destruct (windows_last (seed_guarded (chunk_overlap cfg / 10))
                (chunk_size cfg) tokens [] t) as (ws & w & H).
    exists (map (PyStr.join " ") ws), w.
    rewrite H, map_app. reflexivity. }
  split.
  { intros Hsplit. unfold chunk_text. rewrite Hsplit. reflexivity. }
  reflexivity.
Qed.

Lemma chunk_text_windows_witness :
  (map content (chunk_text (mk_config 10 10) Samples.four_words [])
     = contents_guarded (mk_config 10 10) Samples.four_words
   /\ Forall (fun w => incl w (PyStr.split Samples.four_words))
        (windows (seed_guarded (chunk_overlap (mk_config 10 10) / 10))
           (chunk_size (mk_config 10 10)) []
           (PyStr.split Samples.four_words))
   /\ (forall tokens t, PyStr.split Samples.four_words = tokens ++ [t] ->
       exists cs w,
         map content (chunk_text (mk_config 10 10) Samples.four_words [])
         = cs ++ [PyStr.join " " (w ++ [t])])
   /\ (PyStr.split Samples.four_words = [] ->
       chunk_text (mk_config 10 10) Samples.four_words [] = [])
   /\ chunk_text (mk_config 10 10) "" [] = [])
  /\ contents_guarded (mk_config 10 10) Samples.four_words
     = ["AAAA BBBB"; "BBBB CCCC"; "CCCC DDDD"].
Proof.
  split.
  - apply (chunk_text_windows (mk_config 10 10) Samples.four_words [] 1).
    + reflexivity.
    + reflexivity.
  - reflexivity.
Defined.

(** ** The orchestrator *)

(** The module binds neither [mongo] nor [datetime], and the class
    [DocumentChunk] has no attribute [query]. *)
Lemma names_not_bound :
  name_bound "mongo" = false
  /\ name_bound "datetime" = false
  /\ existsb (String.eqb "query") DocumentChunk_attributes = false.
Proof.
  repeat split.
Qed.

(** C1, at every store and every document identifier:
    [process_document] raises [NameError] at its first statement, and
    nothing in it catches the exception, which reaches the caller; the
    route [reprocess_document] is the one that catches it. The store,
    and with it the indexed flag of every document, is left as it was. *)
Theorem process_document_raises_name_error (st : store)
    (document_id : string) :
  process_document st document_id = (Raised NameError, st)
  /\ (forall b : bool, fst (process_document st document_id) <> Returned b)
  /\ reprocess_document st document_id = (flash_exception NameError, st).
Proof.
  repeat split. intros b. discriminate.
Qed.


(** C10, at an identifier that no document of the store has:
    [process_document] raises [NameError] instead of returning [False];
    the store is left as it was. *)
Theorem process_document_unknown_id_raises :
  (forall d, In d (documents Samples.library) -> doc_id d <> "d9")
  /\ process_document Samples.library "d9"
     = (Raised NameError, Samples.library).
Proof.
  split; [|reflexivity].
  intros d [<-|[<-|[]]]; discriminate.
Qed.

(** ** The runs of the chunker *)

Section Runs.

Variable cfg : config.
Variable text : string.
Variable pages_info : list page_info.





End Runs.



(** ** The extractor *)

(** The text of a document whose pages all have text: each page text
    followed by a newline. *)
Lemma extract_pages_readable (texts : list string) :
  forall (page_num : Z) (text_content : string) (pages_info : list page_info),
  exists new,
    extract_pages (map Some texts) page_num text_content pages_info
    = Some ((text_content
             ++ String.concat ""
                  (map (fun t => t ++ String "010" "") texts))%string,
            pages_info ++ new)
    /\ map pi_text new = texts
    /\ map pi_page_number new
       = map (fun i => page_num + 1 + Z.of_nat i) (seq 0 (List.length texts)).
Proof.
  assert (Happ : forall a b c : string,
             ((a ++ b) ++ c = a ++ b ++ c)%string).
  { intros a b c. induction a as [|x a IH]; simpl; [|rewrite IH];
      reflexivity. }
  assert (Hnil : forall a : string, (a ++ "" = a)%string).
  { intros a. induction a as [|x a IH]; simpl; [|rewrite IH]; reflexivity. }
  induction texts as [|t texts IH]; intros page_num text_content pages_info.
  - exists []. simpl. rewrite Hnil, app_nil_r. repeat split.
  - simpl.
    match goal with
    | |- context [extract_pages _ _ ?tc ?pi] =>
        destruct (IH (page_num + 1) tc pi) as (new & Hrun & Htexts & Hnums)
    end.
    eexists (_ :: new).
    rewrite Hrun, <- app_assoc. simpl.
    split.
    + f_equal. f_equal.
      destruct texts as [|t' texts'].
      * simpl. rewrite !Hnil. reflexivity.
      * rewrite !Happ. reflexivity.
    + split.
      * simpl. f_equal. exact Htexts.
      * simpl. f_equal; [lia|].
        rewrite Hnums, <- seq_shift, map_map.
        apply map_ext. intros i. lia.
Qed.

Lemma extract_pages_unreadable (pages : list (option string)) :
  In None pages ->
  forall (page_num : Z) (text_content : string) (pages_info : list page_info),
  extract_pages pages page_num text_content pages_info = None.
Proof.
  induction pages as [|p pages IH]; intros Hin page_num text_content pages_info.
  - destruct Hin.
  - destruct p as [t|]; simpl; [|reflexivity].
    apply IH. destruct Hin as [H|H]; [discriminate | exact H].
Qed.

Lemma pages_readable_or_not (pages : list (option string)) :
  (exists texts, pages = map Some texts) \/ In None pages.
Proof.
  induction pages as [|p pages [[texts ->]|Hin]].
  - left. exists []. reflexivity.
  - destruct p as [t|].
    + left. exists (t :: texts). reflexivity.
    + right. left. reflexivity.
  - right. right. exact Hin.
Qed.

(** C8, as the claim words it (an unreadable page is skipped, and a
    document without any text is an error), fails on both counts: the
    report, whose second page cannot be read, is rejected as a whole,
    and the blank scan is extracted as two newlines. *)
Lemma extract_text_from_pdf_not_as_specified :
  extract_text_from_pdf Samples.full_env "uploads/report.pdf"
    = Raised PdfExtractionError
  /\ extract_text_from_pdf Samples.full_env "uploads/report.pdf"
     <> extract_as_specified Samples.full_env "uploads/report.pdf"
  /\ extract_as_specified Samples.full_env "uploads/blank.pdf"
     = Raised PdfExtractionError
  /\ extract_text_from_pdf Samples.full_env "uploads/blank.pdf"
     <> extract_as_specified Samples.full_env "uploads/blank.pdf".
Proof.
  repeat split; try reflexivity; vm_compute; discriminate.
Qed.

(** C8, amended: [extract_text_from_pdf] returns exactly when PyPDF2 is
    there, the file can be opened and every page can be read, so one
    unreadable page makes the whole extraction raise; when it returns,
    the text is the page texts, each followed by a newline, with one page
    entry per page, numbered from 1, and this also when every page is
    empty. *)
Theorem extract_text_from_pdf_outcome (env : environment)
    (file_path : string) :
  ((exists r, extract_text_from_pdf env file_path = Returned r)
   <-> PDF_AVAILABLE env = true
       /\ exists texts, open_pdf env file_path = Some (map Some texts))
  /\ (forall texts,
        PDF_AVAILABLE env = true ->
        open_pdf env file_path = Some (map Some texts) ->
        exists pages_info,
          extract_text_from_pdf env file_path
          = Returned (String.concat ""
                        (map (fun t => (t ++ String "010" "")%string) texts),
                      pages_info)
          /\ map pi_text pages_info = texts
          /\ map pi_page_number pages_info
             = map (fun i => 1 + Z.of_nat i) (seq 0 (List.length texts))).
Proof.
  assert (Hreturns : forall texts,
    PDF_AVAILABLE env = true ->
    open_pdf env file_path = Some (map Some texts) ->
    exists pages_info,
      extract_text_from_pdf env file_path
      = Returned (String.concat ""
                    (map (fun t => (t ++ String "010" "")%string) texts),
                  pages_info)
      /\ map pi_text pages_info = texts
      /\ map pi_page_number pages_info
         = map (fun i => 1 + Z.of_nat i) (seq 0 (List.length texts))).
  { intros texts Havail Hopen.
    unfold extract_text_from_pdf. rewrite Havail, Hopen. simpl.
    destruct (extract_pages_readable texts 0 "" [])
      as (new & Hrun & Htexts & Hnums).
    exists new. rewrite Hrun. simpl. repeat split; assumption. }
  split; [|exact Hreturns].
  split.
  - intros [r Hr]. unfold extract_text_from_pdf in Hr.
    destruct (PDF_AVAILABLE env); [|discriminate].
    split; [reflexivity|].
    destruct (open_pdf env file_path) as [pages|]; [|discriminate].
    destruct (pages_readable_or_not pages) as [[texts ->]|Hin].
    + exists texts. reflexivity.
    + simpl in Hr. rewrite (extract_pages_unreadable pages Hin) in Hr.
      discriminate.
  - intros [Havail [texts Hopen]].
    destruct (Hreturns texts Havail Hopen) as (pages_info & Hrun & _).
    eexists. exact Hrun.
Qed.

Lemma extract_text_from_pdf_outcome_witness :
  exists pages_info,
    extract_text_from_pdf Samples.full_env "uploads/blank.pdf"
    = Returned (String.concat ""
                  (map (fun t => (t ++ String "010" "")%string) [""; ""]),
                pages_info)
    /\ map pi_text pages_info = [""; ""]
    /\ map pi_page_number pages_info
       = map (fun i => 1 + Z.of_nat i) (seq 0 (List.length [""; ""])).
Proof.
  apply (proj2 (extract_text_from_pdf_outcome Samples.full_env
                  "uploads/blank.pdf")).
  - reflexivity.
  - reflexivity.
Defined.

(** ** The embedder *)

(** C7, as the claim words it (a text that fails leaves the other
    positions of the batch alone), fails: the text ["good"] gets a vector
    on its own and the empty vector next to a text that fails. *)
Lemma generate_embeddings_empties_batch :
  generate_embeddings Samples.full_env ["good"] = [[F64.one]]
  /\ generate_embeddings Samples.full_env ["good"; "bad"] = [[]; []]
  /\ ~ embeds_position_wise Samples.full_env ["good"; "bad"].
Proof.
  repeat split.
  intros H. inversion H as [|t v ts vs Hhead Htail]. subst.
  vm_compute in Hhead. discriminate.
Qed.

(** C7, amended: without a model, and when the call of the model on the
    batch raises, [generate_embeddings] returns one empty vector per
    text, so a failure empties every position; when the call returns, its
    vectors are returned as they are; the result has the length of the
    batch whenever the model returns one vector per text. *)
Theorem generate_embeddings_batch (env : environment) (texts : list string) :
  (embedding_model env = None ->
   generate_embeddings env texts = repeat [] (List.length texts))
  /\ (forall encode,
        embedding_model env = Some encode -> encode texts = None ->
        generate_embeddings env texts = repeat [] (List.length texts))
  /\ (forall encode embeddings,
        embedding_model env = Some encode ->
        encode texts = Some embeddings ->
        generate_embeddings env texts = embeddings)
  /\ ((forall encode embeddings,
         embedding_model env = Some encode ->
         encode texts = Some embeddings ->
         List.length embeddings = List.length texts) ->
      List.length (generate_embeddings env texts) = List.length texts).
Proof.
  assert (Hempty : map (fun _ : string => @nil spec_float) texts
                   = repeat [] (List.length texts)).
  { induction texts as [|t texts IH]; simpl; [|rewrite IH]; reflexivity. }
  unfold generate_embeddings.
  repeat split.
  - intros ->. exact Hempty.
  - intros encode -> ->. exact Hempty.
  - intros encode embeddings -> ->. reflexivity.
  - intros Hlen.
    destruct (embedding_model env) as [encode|].
    + destruct (encode texts) as [embeddings|] eqn:E.
      * apply (Hlen encode embeddings eq_refl E).
      * apply length_map.
    + apply length_map.
Qed.

Lemma generate_embeddings_batch_witness :
  generate_embeddings Samples.full_env ["good"; "bad"]
  = repeat [] (List.length ["good"; "bad"]).
Proof.
  apply (proj1 (proj2 (generate_embeddings_batch Samples.full_env
                         ["good"; "bad"])) Samples.picky_encoder).
  - reflexivity.
  - reflexivity.
Defined.

(** ** Retrieval *)


(** C9: a query that is empty once stripped of whitespace gets the empty
    list from [search_documents], with no call of the embedding model and
    no query of the chunks, whatever the store, the category and the
    limit; the search route answers it with an empty list of results and
    makes no such call either. *)
Theorem search_blank_query (env : environment) (st : store)
    (query : string) (category : option string) (limit : Z) :
  PyStr.strip query = "" ->
  search_documents env st query category limit = (Returned [], [])
  /\ forall route_category : string,
       exists body,
         fst (search_route env st query route_category limit)
         = answer_ok body
         /\ results body = []
         /\ snd (search_route env st query route_category limit) = [].
Proof.
  intros Hblank.
  assert (Hservice : forall c,
             search_documents env st query c limit = (Returned [], [])).
  { intros c. unfold search_documents. rewrite Hblank. reflexivity. }
  split; [apply Hservice|].
  intros route_category. unfold search_route.
  destruct (String.eqb query "").
  - eexists. repeat split.
  - rewrite Hservice. eexists. repeat split.
Qed.

Lemma search_blank_query_witness :
  search_documents Samples.full_env Samples.zero_library "  " None 5
    = (Returned [], [])
  /\ forall route_category : string,
       exists body,
         fst (search_route Samples.full_env Samples.zero_library
                "  " route_category 5)
         = answer_ok body
         /\ results body = []
         /\ snd (search_route Samples.full_env Samples.zero_library
                   "  " route_category 5) = [].
Proof.
  apply (search_blank_query Samples.full_env Samples.zero_library "  "
           None 5).
  reflexivity.
Defined.

(** * Further properties *)

(** ** Strings *)

Lemma len_nonneg (s : string) : 0 <= PyStr.len s.
Proof.
  unfold PyStr.len. lia.
Qed.

Lemma len_append (a b : string) :
  PyStr.len (a ++ b) = PyStr.len a + PyStr.len b.
Proof.
  unfold PyStr.len.
  assert (H : String.length (a ++ b) = (String.length a + String.length b)%nat).
  { induction a as [|c a IH]; simpl; [|rewrite IH]; reflexivity. }
  rewrite H. lia.
Qed.

Lemma append_nonempty (a : string) (c : ascii) :
  (a ++ String c "")%string <> "".
Proof.
  destruct a; discriminate.
Qed.









(** ** More on the chunker *)

Lemma window_length_nonneg (l : list string) : 0 <= window_length l.
Proof.
  unfold window_length.
  induction l as [|w l IH]; simpl.
  - lia.
  - pose proof (len_nonneg w). lia.
Qed.


Section ChunkerShape.

Variable cfg : config.
Variable text : string.
Variable pages_info : list page_info.
Variable all : list string.



End ChunkerShape.





(** The number of chunks made so far, counting the window that is
    open, grows by at most one with each word; once a word has been read
    the window is never empty again. *)
Lemma chunker_step_count (cfg : config) (text : string)
    (pages_info : list page_info) (st : chunker_state) (word : string) :
  current_chunk (chunker_step cfg text pages_info st word) <> []
  /\ (List.length (chunker_finish text pages_info
                     (chunker_step cfg text pages_info st word))
      <= S (List.length (chunker_finish text pages_info st)))%nat.
Proof.
  unfold chunker_step, chunker_finish.
  destruct (current_chunk st) as [|t cur] eqn:Ecur.
  - rewrite andb_false_r. simpl. split; [discriminate|]. rewrite length_app.
    simpl. lia.
  - destruct (_ && _); simpl.
    + split; [destruct (overlap_words cfg (t :: cur)); discriminate|].
      destruct (overlap_words cfg (t :: cur) ++ [word]) eqn:E.
      * destruct (overlap_words cfg (t :: cur)); discriminate.
      * rewrite !length_app. simpl. lia.
    + split; [discriminate|]. rewrite !length_app. simpl. lia.
Qed.

Lemma chunker_loop_count (cfg : config) (text : string)
    (pages_info : list page_info) (words : list string) :
  forall st,
  (List.length (chunker_finish text pages_info
                  (chunker_loop cfg text pages_info words st))
   <= List.length (chunker_finish text pages_info st) + List.length words)%nat
  /\ (words <> [] ->
      current_chunk (chunker_loop cfg text pages_info words st) <> []).
Proof.
  induction words as [|word words IH]; intros st; simpl.
  - split; [lia | congruence].
  - destruct (IH (chunker_step cfg text pages_info st word)) as [Hlen Hcur].
    destruct (chunker_step_count cfg text pages_info st word) as [Hne Hstep].
    split; [lia|].
    intros _. destruct words as [|w words]; [exact Hne|].
    apply Hcur. discriminate.
Qed.

(** X2: a text gives at most as many chunks as it has words, and it
    gives no chunk exactly when it has no word. *)
Theorem chunk_text_count (cfg : config) (text : string)
    (pages_info : list page_info) :
  (List.length (chunk_text cfg text pages_info)
   <= List.length (PyStr.split text))%nat
  /\ (chunk_text cfg text pages_info = [] <-> PyStr.split text = []).
Proof.
  unfold chunk_text.
  destruct (chunker_loop_count cfg text pages_info (PyStr.split text)
              chunker_init) as [Hlen Hcur].
  split; [exact Hlen|].
  split.
  - intros Hnil.
    destruct (PyStr.split text) as [|w words] eqn:E; [reflexivity|].
    exfalso. apply Hcur; [discriminate|].
    unfold chunker_finish in Hnil.
    destruct (current_chunk _); [reflexivity|].
    destruct (chunks _); discriminate.
  - intros ->. reflexivity.
Qed.

(** Every token that enters [windows] ends up in one of the windows. *)
Lemma windows_cover (seed : list string -> list string) (size : Z)
    (tokens : list string) :
  forall window t,
  In t window \/ In t tokens ->
  exists w, In w (windows seed size window tokens) /\ In t w.
Proof.
  induction tokens as [|token rest IH]; intros window t Hin; simpl.
  - destruct Hin as [Hin|[]].
    exists window. destruct window; [destruct Hin|].
    split; [left; reflexivity | exact Hin].
  - destruct (_ && _).
    + destruct Hin as [Hin|[<-|Hin]].
      * exists window. split; [left; reflexivity | exact Hin].
      * destruct (IH (seed window ++ [token]) token) as (w & Hw & Ht).
        { left. apply in_or_app. right. left. reflexivity. }
        exists w. split; [right; exact Hw | exact Ht].
      * destruct (IH (seed window ++ [token]) t (or_intror Hin))
          as (w & Hw & Ht).
        exists w. split; [right; exact Hw | exact Ht].
    + apply IH.
      destruct Hin as [Hin|[<-|Hin]].
      * left. apply in_or_app. left. exact Hin.
      * left. apply in_or_app. right. left. reflexivity.
      * right. exact Hin.
Qed.

Lemma windows_nonempty (seed : list string -> list string) (size : Z)
    (tokens : list string) :
  forall window,
  Forall (fun w => w <> []) (windows seed size window tokens).
Proof.
  induction tokens as [|token rest IH]; intros window; simpl.
  - destruct window; constructor; [discriminate | constructor].
  - destruct window as [|t window].
    + rewrite andb_false_r. apply IH.
    + destruct (_ && _); [|apply IH].
      constructor; [discriminate | apply IH].
Qed.

(** X3: whatever the configuration, the contents of the chunks are the
    space-joined windows of a list of non-empty windows in which every
    word of the text occurs: chunking drops no word. *)
Theorem chunk_text_covers (cfg : config) (text : string)
    (pages_info : list page_info) :
  exists ws,
    map content (chunk_text cfg text pages_info) = map (PyStr.join " ") ws
    /\ Forall (fun w => w <> []) ws
    /\ forall t, In t (PyStr.split text) -> exists w, In w ws /\ In t w.
Proof.
  exists (windows (overlap_words cfg) (chunk_size cfg) [] (PyStr.split text)).
  split.
  - unfold chunk_text. rewrite chunker_windows by reflexivity. reflexivity.
  - split; [apply windows_nonempty|].
    intros t Ht. apply windows_cover. right. exact Ht.
Qed.

Lemma chunker_loop_fits (cfg : config) (text : string)
    (pages_info : list page_info) (words : list string) :
  forall st,
  current_length st + window_length words <= chunk_size cfg ->
  chunker_loop cfg text pages_info words st
  = {| chunks := chunks st;
       current_chunk := current_chunk st ++ words;
       current_length := current_length st + window_length words;
       chunk_index := chunk_index st |}.
Proof.
  induction words as [|word words IH]; intros st Hfits.
  - destruct st. simpl. rewrite app_nil_r, Z.add_0_r. reflexivity.
  - pose proof (window_length_nonneg words) as Hrest.
    change (window_length (word :: words))
      with (PyStr.len word + 1 + window_length words) in *.
    assert (Hstep : chunker_step cfg text pages_info st word
                    = {| chunks := chunks st;
                         current_chunk := current_chunk st ++ [word];
                         current_length :=
                           current_length st + PyStr.len word + 1;
                         chunk_index := chunk_index st |}).
    { unfold chunker_step.
      destruct (Z.gtb_spec (current_length st + PyStr.len word + 1)
                  (chunk_size cfg)) as [Hgt|_]; [lia | reflexivity]. }
    change (chunker_loop cfg text pages_info (word :: words) st)
      with (chunker_loop cfg text pages_info words
              (chunker_step cfg text pages_info st word)).
    rewrite Hstep, IH; simpl; [|lia].
    rewrite <- app_assoc. simpl. f_equal. lia.
Qed.

(** X4: a text whose words, each counted with one separator, fit in
    [chunk_size] gives exactly one chunk, with index 0 and all its words
    joined by single spaces. *)
Theorem chunk_text_single (cfg : config) (text : string)
    (pages_info : list page_info) :
  PyStr.split text <> [] ->
  window_length (PyStr.split text) <= chunk_size cfg ->
  chunk_text cfg text pages_info
  = [make_chunk text pages_info 0 (PyStr.split text)].
Proof.
  intros Hwords Hfits.
  unfold chunk_text.
  rewrite chunker_loop_fits by exact Hfits.
  unfold chunker_finish. simpl.
  destruct (PyStr.split text); [congruence | reflexivity].
Qed.

Lemma chunk_text_single_witness :
  chunk_text default_config Samples.four_words []
  = [make_chunk Samples.four_words [] 0 (PyStr.split Samples.four_words)].
Proof.
  apply (chunk_text_single default_config Samples.four_words []).
  - discriminate.
  - vm_compute. discriminate.
Defined.

(** ** More on the extractor *)

Arguments PyStr.len : simpl never.

Lemma extract_pages_bounds (texts : list string) :
  forall (page_num : Z) (text_content : string) (pages_info : list page_info),
  exists text new,
    extract_pages (map Some texts) page_num text_content pages_info
    = Some (text, pages_info ++ new)
    /\ map pi_text new = texts
    /\ map (fun p => (char_start p, char_end p)) new
       = page_bounds (PyStr.len text_content) texts
    /\ PyStr.len text = PyStr.len text_content + window_length texts.
Proof.
  induction texts as [|t texts IH]; intros page_num text_content pages_info.
  - exists text_content, []. simpl. rewrite app_nil_r.
    repeat split. unfold window_length. simpl. lia.
  - simpl.
    match goal with
    | |- context [extract_pages _ _ ?tc ?pi] =>
        destruct (IH (page_num + 1) tc pi)
          as (text & new & Hrun & Htexts & Hbounds & Hlen)
    end.
    rewrite !len_append in Hbounds, Hlen.
    change (PyStr.len (String "010" "")) with 1 in Hbounds, Hlen.
    exists text. eexists (_ :: new).
    rewrite Hrun, <- app_assoc. simpl.
    split; [reflexivity|].
    split; [f_equal; exact Htexts|].
    rewrite !len_append.
    change (PyStr.len (String "010" "")) with 1.
    split.
    + simpl. f_equal; [f_equal; lia|].
      rewrite Hbounds. f_equal. lia.
    + change (window_length (t :: texts))
        with (PyStr.len t + 1 + window_length texts).
      lia.
Qed.

(** A successful extraction, taken apart. *)
Lemma extract_text_from_pdf_returned (env : environment) (file_path : string)
    (text : string) (pages_info : list page_info) :
  extract_text_from_pdf env file_path = Returned (text, pages_info) ->
  map (fun p => (char_start p, char_end p)) pages_info
  = page_bounds 0 (map pi_text pages_info)
  /\ PyStr.len text = window_length (map pi_text pages_info).
Proof.
  unfold extract_text_from_pdf.
  destruct (PDF_AVAILABLE env); [|discriminate].
  destruct (open_pdf env file_path) as [pages|]; [|discriminate].
  simpl.
  destruct (pages_readable_or_not pages) as [[texts ->]|Hin].
  - destruct (extract_pages_bounds texts 0 "" [])
      as (text' & new & Hrun & Htexts & Hbounds & Hlen).
    rewrite Hrun. simpl. intros H. inversion H; subst.
    split; [exact Hbounds | exact Hlen].
  - rewrite (extract_pages_unreadable pages Hin). discriminate.
Qed.

(** X5: in the page map of an extracted PDF the interval of the first
    page starts at offset 0, the interval of a page ends at the offset of
    the newline that follows its text, the next interval starts right
    after it, and the length of the text is the sum of the lengths of the
    page texts plus one newline each. *)
Theorem extract_text_from_pdf_page_map (env : environment)
    (file_path : string) (text : string) (pages_info : list page_info) :
  extract_text_from_pdf env file_path = Returned (text, pages_info) ->
  map (fun p => (char_start p, char_end p)) pages_info
  = page_bounds 0 (map pi_text pages_info)
  /\ PyStr.len text
     = fold_right (fun t acc => PyStr.len t + 1 + acc) 0
         (map pi_text pages_info).
Proof.
  apply extract_text_from_pdf_returned.
Qed.

Lemma extract_text_from_pdf_page_map_witness :
  map (fun p => (char_start p, char_end p)) Cases.brochure_pages
  = page_bounds 0 (map pi_text Cases.brochure_pages)
  /\ PyStr.len Cases.brochure_text
     = fold_right (fun t acc => PyStr.len t + 1 + acc) 0
         (map pi_text Cases.brochure_pages).
Proof.
  apply (extract_text_from_pdf_page_map Cases.brochure_env
           "uploads/brochure.pdf").
  reflexivity.
Defined.





(** ** Uploads *)

(** X21: a file whose name does not pass [allowed_file] is refused with a
    [ValueError] before anything is written: the store is the one
    before the call, and no identifier has been drawn. *)
Theorem upload_document_refused (cfg : config) (env : environment)
    (settings : upload_settings) (st : store) (file : file_storage)
    (category title : string) :
  allowed_file (fs_filename file) = false ->
  upload_document cfg env settings st file category title
  = (Raised ValueError, st).
Proof.
  intros H. unfold upload_document. rewrite H, orb_true_r. reflexivity.
Qed.

Lemma upload_document_refused_witness :
  upload_document default_config Samples.plain_env Cases.settings
    Samples.library (mk_file_storage "malware.exe" "application/x-exe")
    "policy" "Run me"
  = (Raised ValueError, Samples.library).
Proof.
  apply (upload_document_refused default_config Samples.plain_env
           Cases.settings Samples.library).
  reflexivity.
Defined.



(** ** Words and whitespace *)

(** X24: the contents and the number of the chunks depend on the words of
    the text only: two texts with the same words, whatever whitespace
    separates them and whatever their page maps, give the same chunk
    contents. *)
Theorem chunk_text_words_only (cfg : config) (text1 text2 : string)
    (pages1 pages2 : list page_info) :
  PyStr.split text1 = PyStr.split text2 ->
  map content (chunk_text cfg text1 pages1)
  = map content (chunk_text cfg text2 pages2)
  /\ List.length (chunk_text cfg text1 pages1)
     = List.length (chunk_text cfg text2 pages2).
Proof.
  intros Hwords.
  assert (H : map content (chunk_text cfg text1 pages1)
              = map content (chunk_text cfg text2 pages2)).
  { unfold chunk_text.
    rewrite !chunker_windows by reflexivity. rewrite Hwords. reflexivity. }
  split; [exact H|].
  apply (f_equal (@List.length string)) in H.
  rewrite !length_map in H. exact H.
Qed.

Lemma chunk_text_words_only_witness :
  map content (chunk_text default_config "a  b" [])
  = map content (chunk_text default_config "a b"
                   [mk_page_info 1 "a b" 0 3])
  /\ List.length (chunk_text default_config "a  b" [])
     = List.length (chunk_text default_config "a b"
                      [mk_page_info 1 "a b" 0 3]).
Proof.
  apply (chunk_text_words_only default_config "a  b" "a b").
  reflexivity.
Defined.

(** ** Indices *)

(** X25: the indices of the chunks that [chunk_text] returns are
    [0, 1, ..., N-1], in this order, without a gap or a duplicate. *)
Theorem chunk_text_indices (cfg : config) (text : string)
    (pages_info : list page_info) :
  map index (chunk_text cfg text pages_info)
  = map Z.of_nat (seq 0 (List.length (chunk_text cfg text pages_info)))
  /\ NoDup (map index (chunk_text cfg text pages_info)).
Proof.
  pose proof (chunk_text_index cfg text pages_info) as H.
  unfold range in H.
  split; [exact H|].
  rewrite H.
  generalize (seq_NoDup (List.length (chunk_text cfg text pages_info)) 0).
  generalize (seq 0 (List.length (chunk_text cfg text pages_info))).
  induction 1 as [|a l Ha _ IH]; simpl; constructor; [|exact IH].
  intros Hin. apply in_map_iff in Hin. destruct Hin as (b & Hb & Hin).
  apply Nat2Z.inj in Hb. subst b. exact (Ha Hin).
Qed.
